(** * The Data Lead blog: partials, post front matter and code samples

    A shallow embedding of [src/partials/Navbar.tsx], of the hero partial, of
    the header blocks of the posts under [src/pages/posts/] and of the code
    samples the posts carry, with the properties the site description states
    about them and further properties of the code. *)

From Stdlib Require Import String Ascii List Bool Arith Lia.
Import ListNotations.
Local Open Scope string_scope.
Local Open Scope list_scope.
Local Open Scope nat_scope.
Set Warnings "-register-all".

(** ** Element trees

    A JSX expression evaluates to an element tree.  An attribute is either a
    string literal ([href="/"]) or an object literal of style declarations
    ([style={{ marginRight: "1rem" }}]).  Components that come from
    [astro-boilerplate-components] ([Section], [NavbarTwoColumns], [NavMenu],
    [NavMenuItem]) stay in the tree as elements named after the component,
    with the attributes and children the source hands them. *)

Module Vdom.

Inductive prop_value : Type :=
| PStr (s : string)
| PStyle (decls : list (string * string)).

Inductive node : Type :=
| Text (s : string)
| Elem (tag : string) (props : list (string * prop_value)) (children : list node).

Definition tag_of (n : node) : option string :=
  match n with
  | Text _ => None
  | Elem tag _ _ => Some tag
  end.

Definition children_of (n : node) : list node :=
  match n with
  | Text _ => []
  | Elem _ _ kids => kids
  end.

Fixpoint get_prop (key : string) (props : list (string * prop_value)) : option prop_value :=
  match props with
  | [] => None
  | (k, v) :: rest => if String.eqb k key then Some v else get_prop key rest
  end.

(** The string value of an attribute of an element, when it has one. *)
Definition attr (key : string) (n : node) : option string :=
  match n with
  | Text _ => None
  | Elem _ props _ =>
      match get_prop key props with
      | Some (PStr s) => Some s
      | _ => None
      end
  end.

(** Text content of a tree: its text leaves, concatenated in document order. *)
Fixpoint text_of (n : node) : string :=
  match n with
  | Text s => s
  | Elem _ _ kids => String.concat "" (map text_of kids)
  end.

(** Every element named [t] in the tree, in document order (an element comes
    before the elements inside it). *)
Fixpoint elements_by_tag (t : string) (n : node) : list node :=
  match n with
  | Text _ => []
  | Elem tag _ kids =>
      (if String.eqb tag t then [n] else []) ++ flat_map (elements_by_tag t) kids
  end.

(** A page around one embedded component: a tree with one hole. *)
Inductive context : Type :=
| Hole
| Inside (tag : string) (props : list (string * prop_value))
         (before : list node) (inner : context) (after : list node).

Fixpoint plug (c : context) (n : node) : node :=
  match c with
  | Hole => n
  | Inside tag props before inner after =>
      Elem tag props (before ++ plug inner n :: after)
  end.

(** Child indices leading from the root of a page to its hole. *)
Fixpoint hole_path (c : context) : list nat :=
  match c with
  | Hole => []
  | Inside _ _ before inner _ => length before :: hole_path inner
  end.

Fixpoint subtree (path : list nat) (n : node) : option node :=
  match path with
  | [] => Some n
  | i :: rest =>
      match nth_error (children_of n) i with
      | Some kid => subtree rest kid
      | None => None
      end
  end.

End Vdom.

(** ** [src/partials/Navbar.tsx] *)

Module Partials.
Import Vdom.

(** [type ILogoProps = { icon: ReactNode; name: string }] *)
Record ILogoProps : Type := { icon : node; name : string }.

(** [const Logo = (props: ILogoProps) => <div ...>{props.icon}{props.name}</div>] *)
Definition Logo (props : ILogoProps) : node :=
  Elem "div"
    [ ("className", PStr "flex items-center text-xl font-bold");
      ("style", PStyle [ ("color", "rgba(25, 189, 236, 0.9)") ]) ]
    [ icon props; Text (name props) ].

(** [<NavMenuItem href=...>label</NavMenuItem>] *)
Definition NavMenuItem (href label : string) : node :=
  Elem "NavMenuItem" [ ("href", PStr href) ] [ Text label ].

(** [const Navbar = () => ( <Section> ... </Section> )]: no parameter. *)
Definition Navbar (_ : unit) : node :=
  Elem "Section" []
    [ Elem "NavbarTwoColumns" []
        [ Elem "a" [ ("href", PStr "/") ]
            [ Logo
                {| icon :=
                     Elem "img"
                       [ ("src", PStr "/assets/images/avatar.png");
                         ("width", PStr "20rem");
                         ("style", PStyle [ ("marginRight", "1rem") ]) ]
                       [];
                   name := "The Data Lead" |} ];
          Elem "NavMenu" []
            [ NavMenuItem "/posts/" "Blog";
              NavMenuItem "/" "GitHub";
              NavMenuItem "/" "Twitter" ] ] ].

(** A navigation entry as the navbar exposes it: [{label, href}]. *)
Record NavigationEntry : Type := { label : string; target : option string }.

Definition entry_of (item : node) : NavigationEntry :=
  {| label := text_of item; target := attr "href" item |}.

(** The entries a rendered navbar offers: the items of its menu, in order. *)
Definition nav_entries (n : node) : list NavigationEntry :=
  map entry_of (elements_by_tag "NavMenuItem" n).

(** The children of the navbar's [NavMenu]. *)
Definition menu_children (n : node) : list node :=
  flat_map children_of (elements_by_tag "NavMenu" n).

(** Link classification.  A reference leaves the site when it carries a URI
    scheme ([https:], [mailto:], ...) or is network-path ([//host/...]);
    anything else is resolved against the site itself. *)
Definition is_alpha (c : ascii) : bool :=
  let n := nat_of_ascii c in
  ((65 <=? n) && (n <=? 90)) || ((97 <=? n) && (n <=? 122)).

Definition is_digit (c : ascii) : bool :=
  let n := nat_of_ascii c in (48 <=? n) && (n <=? 57).

Definition is_scheme_char (c : ascii) : bool :=
  is_alpha c || is_digit c
  || Ascii.eqb c "+"%char || Ascii.eqb c "-"%char || Ascii.eqb c "."%char.

Fixpoint scheme_rest (s : string) : bool :=
  match s with
  | EmptyString => false
  | String c rest =>
      if Ascii.eqb c ":"%char then true
      else if is_scheme_char c then scheme_rest rest
      else false
  end.

Definition has_scheme (s : string) : bool :=
  match s with
  | EmptyString => false
  | String c rest => is_alpha c && scheme_rest rest
  end.

Definition is_external (href : string) : bool :=
  has_scheme href || String.prefix "//" href.

Definition targets_external (e : NavigationEntry) : bool :=
  match target e with
  | Some href => is_external href
  | None => false
  end.

End Partials.

(** ** Header blocks of the posts

    A post starts with a fenced block of [key: value] lines (YAML front
    matter).  Reading it is the site generator's work; the rules below are
    those of YAML scalars as far as the posts use them.  A value written
    between single quotes is a string; an unquoted value of the form
    [YYYY-MM-DD] naming a calendar day is a date; any other unquoted value is
    a string, kept as written. *)

Module FrontMatter.

Inductive scalar : Type :=
| SText (s : string)
| SDate (year month day : nat).

Definition fence : string := "---".

(** Splits [key: value] at the first colon followed by a space. *)
Fixpoint split_key (line : string) : option (string * string) :=
  match line with
  | EmptyString => None
  | String c rest =>
      if Ascii.eqb c ":"%char && String.prefix " " rest
      then Some (EmptyString, String.substring 1 (String.length rest - 1) rest)
      else match split_key rest with
           | Some (k, v) => Some (String c k, v)
           | None => None
           end
  end.

Fixpoint drop_closing_quote (s : string) : option string :=
  match s with
  | EmptyString => None
  | String c EmptyString => if Ascii.eqb c "'"%char then Some EmptyString else None
  | String c rest =>
      match drop_closing_quote rest with
      | Some r => Some (String c r)
      | None => None
      end
  end.

(** ['text'] gives [text]. *)
Definition unquote (raw : string) : option string :=
  match raw with
  | String c rest => if Ascii.eqb c "'"%char then drop_closing_quote rest else None
  | EmptyString => None
  end.

Definition digit (c : ascii) : option nat :=
  let n := nat_of_ascii c in
  if (48 <=? n) && (n <=? 57) then Some (n - 48) else None.

Definition digits2 (a b : ascii) : option nat :=
  match digit a, digit b with
  | Some x, Some y => Some (10 * x + y)
  | _, _ => None
  end.

Definition digits4 (a b c d : ascii) : option nat :=
  match digits2 a b, digits2 c d with
  | Some x, Some y => Some (100 * x + y)
  | _, _ => None
  end.

Definition leap (y : nat) : bool :=
  ((y mod 4 =? 0) && negb (y mod 100 =? 0)) || (y mod 400 =? 0).

Definition days_in_month (y m : nat) : nat :=
  match m with
  | 2 => if leap y then 29 else 28
  | 4 | 6 | 9 | 11 => 30
  | _ => 31
  end.

(** Exactly four digits, a dash, two digits, a dash, two digits. *)
Definition parse_date (raw : string) : option (nat * nat * nat) :=
  match raw with
  | String y1 (String y2 (String y3 (String y4 (String s1
      (String m1 (String m2 (String s2 (String d1 (String d2 EmptyString))))))))) =>
      if Ascii.eqb s1 "-"%char && Ascii.eqb s2 "-"%char then
        match digits4 y1 y2 y3 y4, digits2 m1 m2, digits2 d1 d2 with
        | Some y, Some m, Some d =>
            if (1 <=? m) && (m <=? 12) && (1 <=? d) && (d <=? days_in_month y m)
            then Some (y, m, d) else None
        | _, _, _ => None
        end
      else None
  | _ => None
  end.

Definition resolve (raw : string) : scalar :=
  match unquote raw with
  | Some text => SText text
  | None =>
      match parse_date raw with
      | Some (y, m, d) => SDate y m d
      | None => SText raw
      end
  end.

Definition header : Type := list (string * scalar).

(** Reads entries up to the closing fence; gives the entries and what follows
    the fence. *)
Fixpoint read_block (lines : list string) : option (header * list string) :=
  match lines with
  | [] => None
  | line :: rest =>
      if String.eqb line fence then Some ([], rest)
      else match split_key line, read_block rest with
           | Some (k, raw), Some (entries, body) => Some ((k, resolve raw) :: entries, body)
           | _, _ => None
           end
  end.

Definition front_matter (file : list string) : option (header * list string) :=
  match file with
  | line :: rest => if String.eqb line fence then read_block rest else None
  | [] => None
  end.

Fixpoint field (key : string) (h : header) : option scalar :=
  match h with
  | [] => None
  | (k, v) :: rest => if String.eqb k key then Some v else field key rest
  end.

Definition is_date (v : scalar) : bool :=
  match v with SDate _ _ _ => true | SText _ => false end.

Definition is_text (v : scalar) : bool :=
  match v with SText _ => true | SDate _ _ _ => false end.

(** A path string: text that starts at a root, site ([/...]) or alias ([@/...]). *)
Definition is_path (v : scalar) : bool :=
  match v with
  | SText s => String.prefix "/" s || String.prefix "@/" s
  | SDate _ _ _ => false
  end.

End FrontMatter.

(** ** [src/pages/posts/scala-101.md] and [src/pages/posts/scala-oop.md]

    The header block of each post as written, lines 1 to 8; the markdown that
    follows the closing fence is a parameter. *)

Module Posts.
Import FrontMatter.

Definition scala_101_md (markdown : list string) : list string :=
  [ "---";
    "layout: '@/templates/BasePost.astro'";
    "title: Scala 101";
    "description: Learn the very basics of Scala 3";
    "pubDate: 2024-02-018";
    "imgSrc: '/assets/images/articles/scala-101-1.png'";
    "imgAlt: 'Image post 7'";
    "---" ] ++ markdown.

Definition scala_oop_md (markdown : list string) : list string :=
  [ "---";
    "layout: '@/templates/BasePost.astro'";
    "title: Scala 101";
    "description: OOP with Scala";
    "pubDate: 2024-02-23";
    "imgSrc: '/assets/images/articles/scala-oop/thumbnail.png'";
    "imgAlt: 'Image post 7'";
    "---" ] ++ markdown.

(** What the two header blocks read as. *)
Definition scala_101_header : header :=
  [ ("layout", SText "@/templates/BasePost.astro");
    ("title", SText "Scala 101");
    ("description", SText "Learn the very basics of Scala 3");
    ("pubDate", SText "2024-02-018");
    ("imgSrc", SText "/assets/images/articles/scala-101-1.png");
    ("imgAlt", SText "Image post 7") ].

Definition scala_oop_header : header :=
  [ ("layout", SText "@/templates/BasePost.astro");
    ("title", SText "Scala 101");
    ("description", SText "OOP with Scala");
    ("pubDate", SDate 2024 2 23);
    ("imgSrc", SText "/assets/images/articles/scala-oop/thumbnail.png");
    ("imgAlt", SText "Image post 7") ].

(** One authored article: header entries and body. *)
Record ContentItem : Type := { item_header : header; item_body : list string }.

Definition load (file : list string) : option ContentItem :=
  match front_matter file with
  | Some (h, b) => Some {| item_header := h; item_body := b |}
  | None => None
  end.

(** The posts of the site, each with its markdown. *)
Definition authored (md_101 md_oop : list string) : list (list string) :=
  [ scala_101_md md_101; scala_oop_md md_oop ].

(** Title and publication date are present in the header. *)
Definition header_invariant (h : header) : bool :=
  match field "title" h, field "pubDate" h with
  | Some _, Some _ => true
  | _, _ => false
  end.

End Posts.

(** ** Page assembly *)

Module Assembler.
Import Vdom Partials FrontMatter Posts.

Inductive build_error : Type :=
| MissingField (key : string).

Inductive result (A : Type) : Type :=
| Built (a : A)
| Failed (e : build_error).
Arguments Built {A} a.
Arguments Failed {A} e.

(** Modelled from the spec: the metadata section of an assembled page, which
    belongs to the shared post layout ['@/templates/BasePost.astro'], a file
    absent from the sources.  It holds the header's values as they were read. *)
Record Metadata : Type := {
  m_title : scalar;
  m_description : option scalar;
  m_pubDate : scalar;
  m_imgSrc : option scalar;
  m_imgAlt : option scalar
}.

(** Modelled from the spec: an assembled page, the item's body wrapped in the
    shared layout, which includes the navbar and the head metadata; the layout
    file is absent from the sources. *)
Record Page : Type := {
  metadata : Metadata;
  navigation : node;
  content : list string
}.

(** Modelled from the spec: the page assembler (section 4.1), absent from the
    sources.  Input is one ContentItem; the only error condition is a missing
    required field, title or date, on which assembly fails and gives no page. *)
Definition assemble (item : ContentItem) : result Page :=
  let h := item_header item in
  match field "title" h with
  | None => Failed (MissingField "title")
  | Some t =>
      match field "pubDate" h with
      | None => Failed (MissingField "pubDate")
      | Some d =>
          Built {| metadata :=
                     {| m_title := t;
                        m_description := field "description" h;
                        m_pubDate := d;
                        m_imgSrc := field "imgSrc" h;
                        m_imgAlt := field "imgAlt" h |};
                   navigation := Navbar tt;
                   content := item_body item |}
      end
  end.

(** A draft whose header gives no title, used as a sample input. *)
Definition untitled_draft : ContentItem :=
  {| item_header := [ ("description", SText "untitled draft");
                      ("pubDate", SDate 2024 2 23) ];
     item_body := [ "# Draft" ] |}.

(** A header is complete when it gives every attribute of a ContentItem. *)
Definition complete (h : header) : bool :=
  match field "title" h, field "description" h, field "pubDate" h,
        field "imgSrc" h, field "imgAlt" h with
  | Some _, Some _, Some _, Some _, Some _ => true
  | _, _, _, _, _ => false
  end.

End Assembler.

(** * Code samples of the posts

    The posts carry Scala and Python samples in fenced blocks.  The samples
    below are embedded as written; a method that updates its object takes the
    object's state and gives the new one, and what a sample prints is
    collected as a list of lines. *)

From Stdlib Require Import ZArith DecimalString Sorted Permutation.

(** ** Scala's [Int]: 32-bit two's complement, silent wrap-around *)

Module Int32.
Local Open Scope Z_scope.

Definition min_value : Z := - 2 ^ 31.
Definition max_value : Z := 2 ^ 31 - 1.

Definition in_range (z : Z) : Prop := min_value <= z <= max_value.

Definition wrap (z : Z) : Z := (z + 2 ^ 31) mod 2 ^ 32 - 2 ^ 31.

Definition add (a b : Z) : Z := wrap (a + b).
Definition sub (a b : Z) : Z := wrap (a - b).
Definition mul (a b : Z) : Z := wrap (a * b).
Definition neg (a : Z) : Z := wrap (- a).

(** [Integer.toString]: decimal digits, with a leading minus sign below zero. *)
Definition show (z : Z) : string := NilZero.string_of_int (Z.to_int z).

End Int32.

(** ** Programs that update an object and print

    [Prog S A] runs on a state [S], gives a value [A] and the new state, and
    appends the lines it printed. *)

Module Console.

Definition Prog (S A : Type) : Type := S -> A * S * list string.

Definition ret {S A : Type} (a : A) : Prog S A := fun s => (a, s, []).

Definition bind {S A B : Type} (m : Prog S A) (k : A -> Prog S B) : Prog S B :=
  fun s =>
    let '(a, s1, out1) := m s in
    let '(b, s2, out2) := k a s1 in
    (b, s2, out1 ++ out2).

Definition get {S : Type} : Prog S S := fun s => (s, s, []).
Definition put {S : Type} (s : S) : Prog S unit := fun _ => (tt, s, []).
Definition println {S : Type} (line : string) : Prog S unit := fun s => (tt, s, [line]).

Definition state_after {S A : Type} (r : A * S * list string) : S := snd (fst r).
Definition value_of {S A : Type} (r : A * S * list string) : A := fst (fst r).
Definition printed {S A : Type} (r : A * S * list string) : list string := snd r.

Declare Scope prog_scope.
Delimit Scope prog_scope with prog.
Notation "x <- m ;; k" := (bind m (fun x => k))
  (at level 61, m at next level, right associativity) : prog_scope.
Notation "m ;; k" := (bind m (fun _ => k))
  (at level 61, right associativity) : prog_scope.

End Console.

(** ** [src/pages/posts/scala-oop.md] *)

Module ScalaOop.
Import Console.
Local Open Scope Z_scope.
Local Open Scope prog_scope.

(** *** [class Point(var x: Int, var y: Int)], lines 53 to 61 *)

Module Point.

Record t : Type := { x : Z; y : Z }.

(** [def move(dx: Int, dy: Int): Unit = x = x + dx; y = y + dy] *)
Definition move (dx dy : Z) (p : t) : t :=
  {| x := Int32.add (x p) dx; y := Int32.add (y p) dy |}.

(** [override def toString: String = s"($x, $y)"] *)
Definition toString (p : t) : string :=
  "(" ++ Int32.show (x p) ++ ", " ++ Int32.show (y p) ++ ")".

End Point.

(** *** [class Point] with private members and setters, lines 110 to 136 *)

Module BoundedPoint.

Record t : Type := { _x : Z; _y : Z }.

(** [private val bound = 100] *)
Definition bound : Z := 100.

(** [val point1 = Point()]: [private var _x = 0], [private var _y = 0]. *)
Definition new : t := {| _x := 0; _y := 0 |}.

(** [private def printWarning(): Unit = println("WARNING: Out of bounds")] *)
Definition printWarning : Prog t unit := println "WARNING: Out of bounds".

(** [def x: Int = _x] *)
Definition x : Prog t Z := p <- get ;; ret (_x p).

(** [def x_=(newValue: Int): Unit =
       if newValue < bound then _x = newValue else printWarning()] *)
Definition x_set (newValue : Z) : Prog t unit :=
  if newValue <? bound
  then p <- get ;; put {| _x := newValue; _y := _y p |}
  else printWarning.

(** [def y: Int = _y] *)
Definition y : Prog t Z := p <- get ;; ret (_y p).

(** [def y_=(newValue: Int): Unit =
       if newValue < bound then _y = newValue else printWarning()] *)
Definition y_set (newValue : Z) : Prog t unit :=
  if newValue <? bound
  then p <- get ;; put {| _x := _x p; _y := newValue |}
  else printWarning.

(** An assignment through one of the two setters. *)
Inductive assignment : Type :=
| AssignX (newValue : Z)
| AssignY (newValue : Z).

Definition assign (a : assignment) : Prog t unit :=
  match a with
  | AssignX v => x_set v
  | AssignY v => y_set v
  end.

Fixpoint assign_all (l : list assignment) : Prog t unit :=
  match l with
  | [] => ret tt
  | a :: rest => assign a ;; assign_all rest
  end.

Definition rejected (a : assignment) : bool :=
  match a with
  | AssignX v | AssignY v => negb (v <? bound)
  end.

(** Both coordinates are below the bound. *)
Definition within (p : t) : Prop := _x p < bound /\ _y p < bound.

(** [point1.x = 99; point1.y = 101] *)
Definition sample : Prog t unit := x_set 99 ;; y_set 101.

End BoundedPoint.

(** *** [object StringUtils], lines 181 to 184

    A [String] reference is [null] or a sequence of UTF-16 code units.
    [containsWhitespace] goes through the regular-expression engine and is
    left out. *)

Module StringUtils.

Definition JString : Type := option (list N).

Inductive outcome (A : Type) : Type :=
| Value (a : A)
| NullPointerException.
Arguments Value {A} a.
Arguments NullPointerException {A}.

(** [s.take(length)]: the first [length] units, all of [s] when it is shorter,
    none when [length] is not positive; on [null] the call throws. *)
Definition truncate (s : JString) (length : Z) : outcome (list N) :=
  match s with
  | None => NullPointerException
  | Some units => Value (firstn (Z.to_nat length) units)
  end.

(** [String.trim] strips, at both ends, the units up to U+0020. *)
Definition is_blank (c : N) : bool := (c <=? 32)%N.

Fixpoint drop_blank (units : list N) : list N :=
  match units with
  | [] => []
  | c :: rest => if is_blank c then drop_blank rest else units
  end.

Definition trim (units : list N) : list N :=
  rev (drop_blank (rev (drop_blank units))).

Definition isEmpty (units : list N) : bool :=
  match units with [] => true | _ :: _ => false end.

(** [def isNullOrEmpty(s: String): Boolean = s == null || s.trim.isEmpty] *)
Definition isNullOrEmpty (s : JString) : bool :=
  match s with
  | None => true
  | Some units => isEmpty (trim units)
  end.

(** A literal of ASCII text as a [String]. *)
Definition literal (text : string) : JString :=
  Some (map N_of_ascii (list_ascii_of_string text)).

End StringUtils.

(** *** [class Saiyan(var name: String, var life: Int, var powerLevel: Int)],
    lines 261 to 289

    [kamehameha] computes [(0.1 * powerLevel).toInt] in floating point and is
    left out. *)

Module Saiyan.

Record t : Type := { name : string; life : Z; powerLevel : Z }.

Definition set_life (l : Z) (s : t) : t :=
  {| name := name s; life := l; powerLevel := powerLevel s |}.

(** [def takeDamage(newValue: Int): Unit =
       life -= newValue; if life < 0 then life = 0] *)
Definition takeDamage (newValue : Z) : Prog t unit :=
  s <- get ;;
  put (set_life (Int32.sub (life s) newValue) s) ;;
  s <- get ;;
  if life s <? 0 then put (set_life 0 s) else ret tt.

(** [def status: String = s"$name's current power level is $life."] *)
Definition status : Prog t string :=
  s <- get ;;
  ret (name s ++ "'s current power level is " ++ Int32.show (life s) ++ ".")%string.

(** [def train: Unit = life += 1000; println(...)] *)
Definition train : Prog t unit :=
  s <- get ;;
  put (set_life (Int32.add (life s) 1000) s) ;;
  s <- get ;;
  println (name s ++ " has trained hard! Power level increased to "
           ++ Int32.show (life s) ++ ".")%string.

(** [def goSuperSaiyan: Unit = life *= 50; println(...)] *)
Definition goSuperSaiyan : Prog t unit :=
  s <- get ;;
  put (set_life (Int32.mul (life s) 50) s) ;;
  s <- get ;;
  println (name s ++ " has transformed into a Super Saiyan! Power level surged to "
           ++ Int32.show (life s) ++ ".")%string.

(** [val goku = new Saiyan("Goku", 100, 500)] *)
Definition goku : t := {| name := "Goku"; life := 100; powerLevel := 500 |}.

(** [main]: status, train, status, goSuperSaiyan, status. *)
Definition main : Prog t unit :=
  line <- status ;; println line ;;
  train ;;
  line <- status ;; println line ;;
  goSuperSaiyan ;;
  line <- status ;; println line.

End Saiyan.

(** *** [class Counter(val count: Int)], lines 426 to 428 *)

Module Counter.

Record t : Type := { count : Z }.

(** [infix def add(amount: Int): Counter = new Counter(count + amount)] *)
Definition add (amount : Z) (c : t) : t :=
  {| count := Int32.add (count c) amount |}.

End Counter.

End ScalaOop.

(** ** [src/pages/posts/scala-101.md] *)

Module Scala101.
Local Open Scope Z_scope.

(** [def squareOf(x: Int) = x * x], line 41 *)
Definition squareOf (x : Z) : Z := Int32.mul x x.

(** The code block of lines 194 to 202:
    [var total = 0; var i = 1; while (i <= 10) { total += i; i += 1 }; total] *)
Module SumBlock.

Record vars : Type := { total : Z; i : Z }.

Definition cond (v : vars) : bool := i v <=? 10.

Definition body (v : vars) : vars :=
  {| total := Int32.add (total v) (i v); i := Int32.add (i v) 1 |}.

(** [while (cond) body], run for at most [fuel] tests of the condition. *)
Fixpoint while (fuel : nat) (v : vars) : option vars :=
  match fuel with
  | O => None
  | S fuel' => if cond v then while fuel' (body v) else Some v
  end.

Definition init : vars := {| total := 0; i := 1 |}.

Definition sum (fuel : nat) : option Z :=
  match while fuel init with
  | Some v => Some (total v)
  | None => None
  end.

End SumBlock.

End Scala101.

(** ** The Data Classes post, [src/pages/posts/scala-oop.md] from line 747 *)

Module DataClasses.
Local Open Scope Z_scope.

(** Lines 747 to 754: the header block of the post; what follows the closing
    fence is a parameter. *)
Definition data_classes_md (markdown : list string) : list string :=
  ([ "---";
     "layout: '@/templates/BasePost.astro'";
     "title: Data Classes";
     "description: The Scala killer feature you need in Python";
     "pubDate: 2024-02-23";
     "imgSrc: '/assets/images/articles/data-classes/data-classes.png'";
     "imgAlt: 'Image post 7'";
     "---" ] ++ markdown)%list.

(** The three posts, each with its markdown. *)
Definition all_posts (md_101 md_oop md_dc : list string) : list (list string) :=
  [ Posts.scala_101_md md_101; Posts.scala_oop_md md_oop; data_classes_md md_dc ].

(** Python's [str(n)] for an [int]. *)
Definition str (n : Z) : string := NilZero.string_of_int (Z.to_int n).

(** Lines 861 to 880: [@dataclass(order=True, frozen=True) class Book] with
    the fields [sort_key], [title], [author], [pages], in this order. *)
Record Book : Type := {
  sort_key : Z;
  title : string;
  author : string;
  pages : Z
}.

(** [Book(title=..., author=..., pages=...)]: the generated [__init__] sets the
    three fields, then [__post_init__] sets [sort_key] to [-self.pages]. *)
Definition new_Book (title author : string) (pages : Z) : Book :=
  {| sort_key := - pages; title := title; author := author; pages := pages |}.

(** [__lt__] as [order=True] generates it: the tuples of the fields, in
    declaration order, compared as Python compares tuples (at the first field
    that differs; equal tuples are not less). *)
Definition Book_lt (a b : Book) : bool :=
  if negb (sort_key a =? sort_key b) then sort_key a <? sort_key b
  else if negb (String.eqb (title a) (title b)) then String.ltb (title a) (title b)
  else if negb (String.eqb (author a) (author b)) then String.ltb (author a) (author b)
  else pages a <? pages b.

(** [sorted(books)]: ascending by [__lt__], stable.  An element is placed
    before the first one it is less than. *)
Fixpoint insert (x : Book) (l : list Book) : list Book :=
  match l with
  | [] => [x]
  | y :: rest => if Book_lt x y then x :: y :: rest else y :: insert x rest
  end.

Definition sorted (books : list Book) : list Book :=
  fold_left (fun acc x => insert x acc) books [].

(** [for book in sorted_books: print(f"{book.title}: {book.pages} pages")] *)
Definition report (books : list Book) : list string :=
  map (fun book => title book ++ ": " ++ str (pages book) ++ " pages")%string
      (sorted books).

(** What [__post_init__] establishes, and the order the sample is after. *)
Definition keyed (b : Book) : Prop := sort_key b = - pages b.
Definition more_pages_first (a b : Book) : Prop := pages b <= pages a.

(** [books = [book1, book2, book3]] *)
Definition books : list Book :=
  [ new_Book "Python Programming" "Jane Doe" 300;
    new_Book "Advanced Python" "John Smith" 400;
    new_Book "Learning Python" "Emily Davis" 250 ].

End DataClasses.

(** ** The hero partial, [src/pages/posts/scala-101.md] lines 232 to 301

    [HeroAvatar], [HeroSocial] and [Section] come from
    [astro-boilerplate-components].  A fragment [<>...</>] is the list of its
    children; text between elements is kept as JSX keeps it (lines are
    trimmed where they touch a line break and joined by one space; text on one
    line is kept whole). *)

Module HeroTsx.
Import Vdom.

(** [const getBlueText = (text: string) =>
      <span className="text-cyan-400 hover:underline"> {text}</span>] *)
Definition getBlueText (text : string) : node :=
  Elem "span" [ ("className", PStr "text-cyan-400 hover:underline") ]
    [ Text " "; Text text ].

(** [const introName = (text: string) =>
      <span style={{color: "rgba(25, 189, 236, 0.9)"}}> {text}</span>] *)
Definition introName (text : string) : node :=
  Elem "span" [ ("style", PStyle [ ("color", "rgba(25, 189, 236, 0.9)") ]) ]
    [ Text " "; Text text ].

(** The attributes [Hero] hands to [HeroAvatar]. *)
Record IHeroAvatarProps : Type := {
  title : list node;
  description : list node;
  avatar : node;
  socialButtons : list node
}.

(** [<a href="/"><HeroSocial src=... alt=... /></a>] *)
Definition social (src alt : string) : node :=
  Elem "a" [ ("href", PStr "/") ]
    [ Elem "HeroSocial" [ ("src", PStr src); ("alt", PStr alt) ] [] ].

(** [const Hero = () => ( <Section><HeroAvatar ... /></Section> )]: the
    attributes of the one [HeroAvatar] inside [Section]. *)
Definition Hero (_ : unit) : IHeroAvatarProps :=
  {| title :=
       [ Text "Hi there, I'm "; introName "Jean-Loïc"; Text " 👋" ];
     description :=
       [ Text "I'm a passionate Software Engineer specializing in";
         getBlueText "Big Data";
         Text ". I share insights and tutorials on Data Engineering. It's the perfect place for Data and Software Engineers looking to get a handle on topics like";
         getBlueText "Functional Programming";
         Text ", proper ";
         getBlueText "Object Oriented Programming";
         Text ",";
         getBlueText "Scala";
         Text ", ";
         getBlueText "System Design";
         Text ", and more all explained in a friendly, accessible way." ];
     avatar :=
       Elem "img"
         [ ("className", PStr "h-80 w-50");
           ("src", PStr "/assets/images/avatar.png");
           ("alt", PStr "Avatar image");
           ("loading", PStr "lazy") ]
         [];
     socialButtons :=
       [ social "/assets/images/twitter-icon.png" "Twitter icon";
         social "/assets/images/facebook-icon.png" "Facebook icon";
         social "/assets/images/linkedin-icon.png" "Linkedin icon";
         social "/assets/images/youtube-icon.png" "Youtube icon" ] |}.

(** Every node [Hero] hands over, in the order of the attributes. *)
Definition nodes (props : IHeroAvatarProps) : list node :=
  (title props ++ description props ++ [ avatar props ] ++ socialButtons props)%list.



(** The style declaration [key] of an element, when it has one. *)
Definition style_of (key : string) (n : node) : option string :=
  match n with
  | Text _ => None
  | Elem _ props _ =>
      match get_prop "style" props with
      | Some (PStyle decls) =>
          match find (fun kv => String.eqb (fst kv) key) decls with
          | Some kv => Some (snd kv)
          | None => None
          end
      | _ => None
      end
  end.

End HeroTsx.
(** * Properties *)

Import Vdom Partials FrontMatter Posts Assembler.

(** ** Trees and pages *)

Section Embedding.

Variable page : context.

Lemma nth_error_after_prefix (before after : list node) (n : node) :
  nth_error (before ++ n :: after) (length before) = Some n.
Proof.
  induction before as [| b before IH]; simpl.
  - reflexivity.
  - exact IH.
Qed.

(** A component plugged into a page sits, unchanged, where the hole was. *)
Lemma subtree_plug (n : node) :
  subtree (hole_path page) (plug page n) = Some n.
Proof.
  induction page as [| tag props before inner IH after]; simpl.
  - reflexivity.
  - rewrite nth_error_after_prefix. exact IH.
Qed.

End Embedding.

Lemma Logo_children (props : ILogoProps) :
  children_of (Logo props) = [ icon props; Text (name props) ].
Proof. reflexivity. Qed.

Lemma Navbar_entries (u : unit) :
  nav_entries (Navbar u) =
    [ {| label := "Blog"; target := Some "/posts/" |};
      {| label := "GitHub"; target := Some "/" |};
      {| label := "Twitter"; target := Some "/" |} ].
Proof. reflexivity. Qed.

Lemma Navbar_menu (u : unit) :
  menu_children (Navbar u) =
    [ NavMenuItem "/posts/" "Blog"; NavMenuItem "/" "GitHub"; NavMenuItem "/" "Twitter" ].
Proof. reflexivity. Qed.

(** ** Navigation entries *)

(** C1, as stated, fails: it is not the case that the navbar offers Blog,
    GitHub and Twitter with Blog on [/posts/] and with GitHub and Twitter on
    destinations outside the site. *)
Lemma navbar_github_twitter_stay_on_site :
  ~ (map label (nav_entries (Navbar tt)) = [ "Blog"; "GitHub"; "Twitter" ]
     /\ (forall e, In e (nav_entries (Navbar tt)) ->
           label e = "Blog" -> target e = Some "/posts/")
     /\ (forall e, In e (nav_entries (Navbar tt)) ->
           label e = "GitHub" \/ label e = "Twitter" -> targets_external e = true)).
Proof.
  intros (_ & _ & Hext).
  specialize (Hext {| label := "GitHub"; target := Some "/" |}).
  rewrite Navbar_entries in Hext.
  assert (H : targets_external {| label := "GitHub"; target := Some "/" |} = true).
  { apply Hext; simpl; auto. }
  discriminate H.
Qed.

(** C1, amended: the navbar offers exactly the entries Blog, GitHub and
    Twitter, in that order; Blog targets [/posts/], and GitHub and Twitter both
    target the site root [/], which is a path of the site and not an external
    destination. *)
Theorem navbar_entries_and_targets :
  nav_entries (Navbar tt) =
    [ {| label := "Blog"; target := Some "/posts/" |};
      {| label := "GitHub"; target := Some "/" |};
      {| label := "Twitter"; target := Some "/" |} ]
  /\ is_external "/posts/" = false
  /\ is_external "/" = false.
Proof.
  split; [apply Navbar_entries | split; reflexivity].
Qed.

(** C3: whatever page the navbar is embedded in, and with no input of its own,
    the navbar found in that page offers exactly the entries Blog, GitHub and
    Twitter, in this order, and its menu has these three items as its only
    children. *)
Theorem navbar_same_entries_on_every_page (page : context) (u : unit) :
  exists nb,
    subtree (hole_path page) (plug page (Navbar u)) = Some nb
    /\ map label (nav_entries nb) = [ "Blog"; "GitHub"; "Twitter" ]
    /\ map tag_of (menu_children nb) =
         [ Some "NavMenuItem"; Some "NavMenuItem"; Some "NavMenuItem" ]
    /\ map entry_of (menu_children nb) = nav_entries nb.
Proof.
  exists (Navbar u). split.
  - apply subtree_plug.
  - rewrite Navbar_entries, Navbar_menu. repeat split.
Qed.

(** C9: on every page the navbar's only link element outside the menu is an
    anchor to the site root [/] whose single child is the logo; the logo shows
    the image [/assets/images/avatar.png] followed by the name "The Data
    Lead". *)
Theorem navbar_logo_links_home (page : context) (u : unit) :
  exists nb anchor logo img,
    subtree (hole_path page) (plug page (Navbar u)) = Some nb
    /\ elements_by_tag "a" nb = [ anchor ]
    /\ attr "href" anchor = Some "/"
    /\ children_of anchor = [ logo ]
    /\ logo = Logo {| icon := img; name := "The Data Lead" |}
    /\ children_of logo = [ img; Text "The Data Lead" ]
    /\ tag_of img = Some "img"
    /\ attr "src" img = Some "/assets/images/avatar.png".
Proof.
  eexists (Navbar u), _, _, _. split.
  - apply subtree_plug.
  - repeat split.
Qed.

(** ** Headers of the authored posts *)

Lemma load_scala_101 (markdown : list string) :
  load (scala_101_md markdown) =
    Some {| item_header := scala_101_header; item_body := markdown |}.
Proof. reflexivity. Qed.

Lemma load_scala_oop (markdown : list string) :
  load (scala_oop_md markdown) =
    Some {| item_header := scala_oop_header; item_body := markdown |}.
Proof. reflexivity. Qed.

(** A day written with three digits is not a date literal. *)
Lemma parse_date_length (raw : string) (d : nat * nat * nat) :
  parse_date raw = Some d -> String.length raw = 10.
Proof.
  unfold parse_date. intros H.
  do 10 (destruct raw as [| ? raw]; [discriminate H |]).
  destruct raw; [reflexivity | discriminate H].
Qed.

(** C6: each authored post has a header block that reads, and that holds both
    a title and a publication date entry. *)
Theorem authored_headers_have_title_and_pubDate (md_101 md_oop : list string) :
  Forall (fun file =>
            exists item, load file = Some item
                         /\ header_invariant (item_header item) = true
                         /\ field "title" (item_header item) <> None
                         /\ field "pubDate" (item_header item) <> None)
         (authored md_101 md_oop).
Proof.
  unfold authored. repeat constructor.
  - eexists. split; [apply load_scala_101 |]. repeat split; discriminate.
  - eexists. split; [apply load_scala_oop |]. repeat split; discriminate.
Qed.

(** C10: each authored post names the layout ['@/templates/BasePost.astro'] in
    its header, so the posts share one template. *)
Theorem authored_posts_share_layout (md_101 md_oop : list string) :
  Forall (fun file =>
            exists item, load file = Some item
                         /\ field "layout" (item_header item)
                            = Some (SText "@/templates/BasePost.astro"))
         (authored md_101 md_oop).
Proof.
  unfold authored. repeat constructor.
  - eexists. split; [apply load_scala_101 | reflexivity].
  - eexists. split; [apply load_scala_oop | reflexivity].
Qed.

(** C7, at [scala-101.md]: the header's [pubDate] is written [2024-02-018],
    which is no date literal, so the key holds a text and not a date; [imgSrc]
    and [layout] hold path strings.  In [scala-oop.md] the same key holds the
    date 2024-02-23. *)
Theorem scala_101_pubDate_is_not_a_date (markdown : list string) :
  exists item,
    load (scala_101_md markdown) = Some item
    /\ parse_date "2024-02-018" = None
    /\ field "pubDate" (item_header item) = Some (SText "2024-02-018")
    /\ option_map is_date (field "pubDate" (item_header item)) = Some false
    /\ option_map is_path (field "imgSrc" (item_header item)) = Some true
    /\ option_map is_path (field "layout" (item_header item)) = Some true
    /\ option_map is_date (field "pubDate" scala_oop_header) = Some true.
Proof.
  eexists. split; [apply load_scala_101 |]. repeat split.
Qed.

(** ** Page assembly *)

(** For a complete header the assembled page carries the title, the
    description, the publication date and the hero image reference as read. *)
Lemma assemble_complete (item : ContentItem) :
  complete (item_header item) = true ->
  exists page,
    assemble item = Built page
    /\ Some (m_title (metadata page)) = field "title" (item_header item)
    /\ m_description (metadata page) = field "description" (item_header item)
    /\ Some (m_pubDate (metadata page)) = field "pubDate" (item_header item)
    /\ m_imgSrc (metadata page) = field "imgSrc" (item_header item)
    /\ content page = item_body item.
Proof.
  unfold complete, assemble. intros H.
  destruct (field "title" (item_header item)) as [t |]; [| discriminate H].
  destruct (field "description" (item_header item)) as [de |]; [| discriminate H].
  destruct (field "pubDate" (item_header item)) as [d |]; [| discriminate H].
  eexists. split; [reflexivity |]. simpl. repeat split.
Qed.

(** C2, at [scala-101.md]: the page assembled from the post carries the title
    "Scala 101", the description and the image reference of the header, and as
    publication date the text [2024-02-018] that the header holds, which is
    not the date 2024-02-18. *)
Theorem scala_101_page_pubDate (markdown : list string) :
  exists item page,
    load (scala_101_md markdown) = Some item
    /\ complete (item_header item) = true
    /\ assemble item = Built page
    /\ m_title (metadata page) = SText "Scala 101"
    /\ m_description (metadata page) = Some (SText "Learn the very basics of Scala 3")
    /\ m_imgSrc (metadata page) = Some (SText "/assets/images/articles/scala-101-1.png")
    /\ m_pubDate (metadata page) = SText "2024-02-018"
    /\ m_pubDate (metadata page) <> SDate 2024 2 18.
Proof.
  eexists _, _. split; [apply load_scala_101 |].
  split; [reflexivity |]. split; [reflexivity |]. simpl.
  repeat split. discriminate.
Qed.

(** C5: when the header of a ContentItem lacks the title or the publication
    date, page assembly fails, naming a missing field, and gives no page. *)
Theorem assemble_fails_on_missing_field (item : ContentItem) :
  field "title" (item_header item) = None
  \/ field "pubDate" (item_header item) = None ->
  (exists key, assemble item = Failed (MissingField key))
  /\ (forall page, assemble item <> Built page).
Proof.
  unfold assemble. intros [H | H].
  - rewrite H. split; [eexists; reflexivity | discriminate].
  - rewrite H. destruct (field "title" (item_header item));
      (split; [eexists; reflexivity | discriminate]).
Qed.

Lemma assemble_fails_on_missing_field_witness :
  (field "title" (item_header untitled_draft) = None
   \/ field "pubDate" (item_header untitled_draft) = None)
  /\ (exists key, assemble untitled_draft = Failed (MissingField key))
  /\ (forall page, assemble untitled_draft <> Built page).
Proof.
  split.
  - left. reflexivity.
  - apply (assemble_fails_on_missing_field untitled_draft). left. reflexivity.
Defined.

(** * Properties of the code samples *)

(** ** 32-bit arithmetic *)

Module Int32Facts.
Import Int32.
Local Open Scope Z_scope.

Lemma wrap_in_range (z : Z) : in_range (wrap z).
Proof.
  unfold in_range, wrap, min_value, max_value.
  pose proof (Z.mod_pos_bound (z + 2 ^ 31) (2 ^ 32) ltac:(lia)). lia.
Qed.

Lemma wrap_id (z : Z) : in_range z -> wrap z = z.
Proof.
  unfold in_range, wrap, min_value, max_value. intros H.
  rewrite Z.mod_small; lia.
Qed.

Lemma wrap_add_l (a b : Z) : wrap (wrap a + b) = wrap (a + b).
Proof.
  unfold wrap.
  replace ((a + 2 ^ 31) mod 2 ^ 32 - 2 ^ 31 + b + 2 ^ 31)
    with ((a + 2 ^ 31) mod 2 ^ 32 + b) by lia.
  rewrite Zplus_mod_idemp_l. f_equal. f_equal. lia.
Qed.

Lemma wrap_add_r (a b : Z) : wrap (a + wrap b) = wrap (a + b).
Proof. rewrite (Z.add_comm a), wrap_add_l. f_equal. lia. Qed.

Lemma add_assoc (a b c : Z) : add (add a b) c = add a (add b c).
Proof. unfold add. rewrite wrap_add_l, wrap_add_r. f_equal. lia. Qed.

Lemma add_neg_cancel (a b : Z) : in_range a -> add (add a b) (neg b) = a.
Proof.
  intros Ha. unfold add, neg. rewrite wrap_add_l, wrap_add_r.
  replace (a + b + - b) with a by lia. apply wrap_id, Ha.
Qed.

End Int32Facts.

(** ** Points *)

Module PointFacts.
Import Int32 Int32Facts ScalaOop.
Local Open Scope Z_scope.

(** X8: two moves in a row are one move by the wrapped sums of the offsets. *)
Theorem move_move (dx1 dy1 dx2 dy2 : Z) (p : Point.t) :
  Point.move dx2 dy2 (Point.move dx1 dy1 p)
  = Point.move (add dx1 dx2) (add dy1 dy2) p.
Proof.
  unfold Point.move. simpl. f_equal; apply add_assoc.
Qed.

(** X9: moving by an offset and then by its negation gives the point back, also
    when the coordinates overflow on the way. *)
Theorem move_back (dx dy : Z) (p : Point.t) :
  in_range (Point.x p) -> in_range (Point.y p) ->
  Point.move (neg dx) (neg dy) (Point.move dx dy p) = p.
Proof.
  intros Hx Hy. destruct p as [px py]. unfold Point.move. simpl in *.
  f_equal; apply add_neg_cancel; assumption.
Qed.

Lemma move_back_witness :
  (in_range 2147483647 /\ in_range 3)
  /\ Point.move (neg 5) (neg min_value)
       (Point.move 5 min_value {| Point.x := 2147483647; Point.y := 3 |})
     = {| Point.x := 2147483647; Point.y := 3 |}.
Proof.
  split.
  - split; unfold in_range, min_value, max_value; simpl; lia.
  - apply (move_back 5 min_value {| Point.x := 2147483647; Point.y := 3 |});
      unfold in_range, min_value, max_value; simpl; lia.
Defined.

End PointFacts.

Module BoundedPointFacts.
Import Console ScalaOop ScalaOop.BoundedPoint.
Local Open Scope Z_scope.

Lemma assign_within (a : assignment) (p : t) :
  within p -> within (state_after (assign a p)).
Proof.
  unfold within. intros [Hx Hy].
  destruct a as [v | v]; unfold assign, x_set, y_set;
    destruct (v <? bound) eqn:Hv; simpl; try (split; assumption);
    apply Z.ltb_lt in Hv; split; assumption.
Qed.

Lemma assign_all_cons (a : assignment) (l : list assignment) (p : t) :
  assign_all (a :: l) p
  = (tt, state_after (assign_all l (state_after (assign a p))),
     printed (assign a p) ++ printed (assign_all l (state_after (assign a p)))).
Proof.
  simpl. unfold bind, state_after, printed.
  destruct (assign a p) as [[u p1] out1]. simpl.
  destruct (assign_all l p1) as [[u2 p2] out2]. destruct u2. reflexivity.
Qed.

Lemma assign_all_within (l : list assignment) (p : t) :
  within p -> within (state_after (assign_all l p)).
Proof.
  revert p. induction l as [| a l IH]; intros p Hp.
  - exact Hp.
  - rewrite assign_all_cons. unfold state_after at 1. simpl.
    apply IH, assign_within, Hp.
Qed.

(** X1: whatever is assigned through the setters of a new point, in whatever
    order, both coordinates stay below the bound of 100. *)
Theorem setters_keep_bound (l : list assignment) :
  _x (state_after (assign_all l new)) < 100
  /\ _y (state_after (assign_all l new)) < 100.
Proof.
  apply (assign_all_within l new). split; reflexivity.
Qed.

Lemma assign_printed (a : assignment) (p : t) :
  printed (assign a p)
  = if rejected a then [ "WARNING: Out of bounds"%string ] else [].
Proof.
  destruct a as [v | v]; unfold assign, x_set, y_set, rejected;
    destruct (v <? bound); reflexivity.
Qed.

(** X2: a run of assignments prints one warning per assignment of a value of 100
    or more, and nothing else. *)
Theorem one_warning_per_rejection (l : list assignment) (p : t) :
  printed (assign_all l p)
  = repeat "WARNING: Out of bounds"%string (length (filter rejected l)).
Proof.
  revert p. induction l as [| a l IH]; intros p.
  - reflexivity.
  - rewrite assign_all_cons. unfold printed at 1. simpl.
    rewrite IH, assign_printed. destruct (rejected a); reflexivity.
Qed.

(** X3: a value below the bound that is assigned to [x] is what the getter then
    returns; [y] keeps its value and nothing is printed. *)
Theorem x_set_then_x (v : Z) (p : t) :
  v < 100 ->
  value_of (x (state_after (x_set v p))) = v
  /\ _y (state_after (x_set v p)) = _y p
  /\ printed (x_set v p) = [].
Proof.
  intros Hv. unfold x_set. apply Z.ltb_lt in Hv. unfold bound. rewrite Hv.
  repeat split.
Qed.

Lemma x_set_then_x_witness :
  99 < 100
  /\ value_of (x (state_after (x_set 99 new))) = 99
  /\ _y (state_after (x_set 99 new)) = _y new
  /\ printed (x_set 99 new) = [].
Proof.
  split; [lia | apply (x_set_then_x 99 new); lia].
Defined.

(** X4: a value of 100 or more is refused by either setter: the point is left as
    it was and the warning is printed once.  Values below zero are not
    refused. *)
Theorem setters_refuse_from_bound (v : Z) (p : t) :
  100 <= v ->
  x_set v p = (tt, p, [ "WARNING: Out of bounds"%string ])
  /\ y_set v p = (tt, p, [ "WARNING: Out of bounds"%string ])
  /\ _x (state_after (x_set (- v) p)) = - v.
Proof.
  intros Hv. unfold x_set, y_set, bound.
  assert (H1 : (v <? 100) = false) by (apply Z.ltb_ge; lia).
  assert (H2 : (- v <? 100) = true) by (apply Z.ltb_lt; lia).
  rewrite H1, H2. repeat split.
Qed.

Lemma setters_refuse_from_bound_witness :
  100 <= 101
  /\ x_set 101 (state_after (sample new))
     = (tt, state_after (sample new), [ "WARNING: Out of bounds"%string ])
  /\ y_set 101 (state_after (sample new))
     = (tt, state_after (sample new), [ "WARNING: Out of bounds"%string ])
  /\ _x (state_after (x_set (- 101) (state_after (sample new)))) = - 101.
Proof.
  split; [lia | apply (setters_refuse_from_bound 101 (state_after (sample new))); lia].
Defined.

End BoundedPointFacts.

(** ** String utilities *)

Module StringUtilsFacts.
Import ScalaOop ScalaOop.StringUtils.
Local Open Scope Z_scope.

(** X11: [truncate] gives a prefix of the string whose length is the requested one,
    cut to what the string has and to zero when negative; on [null] it
    throws. *)
Theorem truncate_prefix (units : list N) (n : Z) :
  exists kept dropped,
    truncate (Some units) n = Value kept
    /\ units = (kept ++ dropped)%list
    /\ Z.of_nat (length kept) = Z.min (Z.max n 0) (Z.of_nat (length units))
    /\ truncate None n = NullPointerException.
Proof.
  exists (firstn (Z.to_nat n) units), (skipn (Z.to_nat n) units).
  split; [reflexivity |]. split; [symmetry; apply firstn_skipn |].
  split; [| reflexivity].
  rewrite length_firstn. lia.
Qed.

Lemma drop_blank_nil (units : list N) :
  drop_blank units = [] <-> forallb is_blank units = true.
Proof.
  induction units as [| c rest IH]; simpl.
  - split; reflexivity.
  - destruct (is_blank c); simpl.
    + exact IH.
    + split; discriminate.
Qed.

Lemma drop_blank_all_blank (units : list N) :
  forallb is_blank units = true -> trim units = [].
Proof.
  intros H. unfold trim. apply drop_blank_nil in H. rewrite H. reflexivity.
Qed.

Lemma drop_blank_head (units : list N) (c : N) (rest : list N) :
  drop_blank units = c :: rest -> is_blank c = false.
Proof.
  induction units as [| d more IH]; simpl.
  - discriminate.
  - destruct (is_blank d) eqn:Hd.
    + exact IH.
    + intros H. injection H as -> _. exact Hd.
Qed.

Lemma trim_nil (units : list N) :
  trim units = [] <-> forallb is_blank units = true.
Proof.
  split; [| apply drop_blank_all_blank].
  unfold trim. intros H.
  apply (f_equal (@rev N)) in H. rewrite rev_involutive in H. simpl in H.
  apply drop_blank_nil in H. rewrite forallb_forall in H.
  apply drop_blank_nil.
  destruct (drop_blank units) as [| c rest] eqn:Hd; [reflexivity |].
  pose proof (drop_blank_head _ _ _ Hd) as Hc.
  rewrite (H c) in Hc; [discriminate Hc |].
  apply in_rev. rewrite rev_involutive. left. reflexivity.
Qed.

(** X12: [isNullOrEmpty] holds of [null] and of the strings made only of units up
    to U+0020 (the empty string among them), and of no other string. *)
Theorem isNullOrEmpty_iff (s : JString) :
  isNullOrEmpty s = true
  <-> s = None \/ exists units, s = Some units /\ Forall (fun c => (c <= 32)%N) units.
Proof.
  destruct s as [units |]; simpl.
  - assert (Hb : isEmpty (trim units) = true <-> forallb is_blank units = true).
    { rewrite <- trim_nil. destruct (trim units); simpl; split;
        intros H; try reflexivity; discriminate H. }
    rewrite Hb, forallb_forall, <- Forall_forall. split.
    + intros H. right. exists units. split; [reflexivity |].
      eapply Forall_impl; [| exact H]. intros c Hc. apply N.leb_le, Hc.
    + intros [H | (u & Hu & H)]; [discriminate H |].
      injection Hu as <-. eapply Forall_impl; [| exact H].
      intros c Hc. apply N.leb_le, Hc.
  - split; [left; reflexivity | reflexivity].
Qed.

End StringUtilsFacts.

(** ** Saiyan *)

Module SaiyanFacts.
Import Int32 Int32Facts Console ScalaOop ScalaOop.Saiyan.
Local Open Scope Z_scope.

Lemma takeDamage_run (v : Z) (s : t) :
  takeDamage v s
  = (tt, set_life (if sub (life s) v <? 0 then 0 else sub (life s) v) s, []).
Proof.
  unfold takeDamage, bind, get, put, ret. simpl.
  destruct (sub (life s) v <? 0); reflexivity.
Qed.

(** X5: after [takeDamage], whatever the damage and whatever overflow it causes,
    life is not negative; name and power level are as before and nothing is
    printed. *)
Theorem takeDamage_life_not_negative (v : Z) (s : t) :
  0 <= life (state_after (takeDamage v s))
  /\ name (state_after (takeDamage v s)) = name s
  /\ powerLevel (state_after (takeDamage v s)) = powerLevel s
  /\ printed (takeDamage v s) = [].
Proof.
  rewrite takeDamage_run. unfold state_after, printed. simpl.
  repeat split.
  destruct (sub (life s) v <? 0) eqn:H; [lia | apply Z.ltb_ge, H].
Qed.

(** X6: damage between zero and the current life is subtracted from it; damage
    beyond the current life leaves zero. *)
Theorem takeDamage_subtracts_or_floors (v : Z) (s : t) :
  in_range (life s) -> in_range v -> 0 <= life s -> 0 <= v ->
  life (state_after (takeDamage v s)) = Z.max 0 (life s - v).
Proof.
  intros Hl Hv Hl0 Hv0. rewrite takeDamage_run. unfold state_after. simpl.
  unfold sub. rewrite wrap_id.
  - destruct (life s - v <? 0) eqn:H.
    + apply Z.ltb_lt in H. lia.
    + apply Z.ltb_ge in H. lia.
  - unfold in_range, min_value, max_value in *. lia.
Qed.

Lemma takeDamage_subtracts_or_floors_witness :
  (in_range (life goku) /\ in_range 30 /\ 0 <= life goku /\ 0 <= 30)
  /\ life (state_after (takeDamage 30 goku)) = Z.max 0 (life goku - 30).
Proof.
  assert (H : in_range (life goku) /\ in_range 30 /\ 0 <= life goku /\ 0 <= 30).
  { unfold in_range, min_value, max_value. simpl. lia. }
  split; [exact H |].
  destruct H as (H1 & H2 & H3 & H4).
  exact (takeDamage_subtracts_or_floors 30 goku H1 H2 H3 H4).
Defined.

(** X7: negative damage adds to life, until the sum passes the largest [Int]:
    then the subtraction wraps below zero and life drops to zero. *)
Theorem takeDamage_negative_overflow (v : Z) (s : t) :
  in_range (life s) -> in_range v -> v < 0 ->
  life (state_after (takeDamage v s))
  = if life s - v <=? max_value then Z.max 0 (life s - v) else 0.
Proof.
  intros Hl Hv Hneg. rewrite takeDamage_run. unfold state_after. simpl.
  unfold in_range, min_value, max_value in *.
  destruct (life s - v <=? 2 ^ 31 - 1) eqn:Hfit.
  - apply Z.leb_le in Hfit. unfold sub. rewrite wrap_id.
    + destruct (life s - v <? 0) eqn:H;
        [apply Z.ltb_lt in H | apply Z.ltb_ge in H]; lia.
    + unfold in_range, min_value, max_value. lia.
  - apply Z.leb_gt in Hfit.
    assert (Hw : sub (life s) v = life s - v - 2 ^ 32).
    { unfold sub, wrap.
      replace (life s - v + 2 ^ 31) with (life s - v - 2 ^ 31 + 1 * 2 ^ 32) by lia.
      rewrite Z.mod_add by lia. rewrite Z.mod_small; lia. }
    rewrite Hw.
    assert (Hlt : (life s - v - 2 ^ 32 <? 0) = true) by (apply Z.ltb_lt; lia).
    rewrite Hlt. reflexivity.
Qed.

Lemma takeDamage_negative_overflow_witness :
  (in_range (life goku) /\ in_range min_value /\ min_value < 0)
  /\ life (state_after (takeDamage min_value goku)) = 0.
Proof.
  assert (H : in_range (life goku) /\ in_range min_value /\ min_value < 0).
  { unfold in_range, min_value, max_value. simpl. lia. }
  split; [exact H |].
  destruct H as (H1 & H2 & H3).
  exact (takeDamage_negative_overflow min_value goku H1 H2 H3).
Defined.

End SaiyanFacts.

(** ** Counter *)

Module CounterFacts.
Import Int32 Int32Facts ScalaOop.
Local Open Scope Z_scope.

(** X10: adding amounts one after the other gives the counter that one addition of
    their total gives: only the total matters, not how it is split. *)
Theorem add_all_is_add_total (amounts : list Z) (c : Counter.t) :
  in_range (Counter.count c) ->
  fold_left (fun acc amount => Counter.add amount acc) amounts c
  = Counter.add (fold_right Z.add 0 amounts) c.
Proof.
  revert c. induction amounts as [| a rest IH]; intros [n] Hn; simpl in *.
  - unfold Counter.add. simpl. unfold add. rewrite Z.add_0_r, wrap_id; auto.
  - rewrite IH.
    + unfold Counter.add. simpl. f_equal. unfold add.
      rewrite wrap_add_l. f_equal. lia.
    + simpl. apply wrap_in_range.
Qed.

Lemma add_all_is_add_total_witness :
  in_range 10
  /\ fold_left (fun acc amount => Counter.add amount acc) [ 5; max_value; -7 ]
       {| Counter.count := 10 |}
     = Counter.add (fold_right Z.add 0 [ 5; max_value; -7 ]) {| Counter.count := 10 |}.
Proof.
  assert (H : in_range 10) by (unfold in_range, min_value, max_value; lia).
  split; [exact H |].
  exact (add_all_is_add_total [ 5; max_value; -7 ] {| Counter.count := 10 |} H).
Defined.

End CounterFacts.

(** ** Samples of the Scala 101 post *)

Module Scala101Facts.
Import Int32 Int32Facts Scala101.
Local Open Scope Z_scope.

(** X13: [squareOf] gives the square of its argument for the arguments from -46340
    to 46340 and for no other [Int]: beyond them the product wraps. *)
Theorem squareOf_exact_iff (x : Z) :
  in_range x -> (squareOf x = x * x <-> -46340 <= x <= 46340).
Proof.
  intros Hx. unfold squareOf, mul. split.
  - intros H. pose proof (wrap_in_range (x * x)) as Hr. rewrite H in Hr.
    unfold in_range, min_value, max_value in Hr. nia.
  - intros H. apply wrap_id. unfold in_range, min_value, max_value. nia.
Qed.

Lemma squareOf_exact_iff_witness :
  in_range 46341
  /\ (squareOf 46341 = 46341 * 46341 <-> -46340 <= 46341 <= 46340)
  /\ squareOf 46341 = -2147479015.
Proof.
  assert (H : in_range 46341) by (unfold in_range, min_value, max_value; lia).
  split; [exact H |]. split; [exact (squareOf_exact_iff 46341 H) | reflexivity].
Defined.

Import SumBlock.

Lemma while_step (fuel : nat) (v : vars) :
  while (S fuel) v = if cond v then while fuel (body v) else Some v.
Proof. reflexivity. Qed.

Lemma while_sums (fuel : nat) :
  forall v : vars,
    1 <= i v <= 11 ->
    0 <= total v ->
    2 * total v + (10 + i v) * (11 - i v) <= 2 * max_value ->
    12 - i v <= Z.of_nat fuel ->
    exists t,
      while fuel v = Some {| total := t; i := 11 |}
      /\ 2 * t = 2 * total v + (10 + i v) * (11 - i v).
Proof.
  induction fuel as [| fuel IH]; intros [t0 i0] Hi Ht Hfit Hfuel;
    cbn [i total] in *.
  - lia.
  - rewrite while_step. unfold cond. cbn [i total].
    destruct (i0 <=? 10) eqn:Hc.
    + apply Z.leb_le in Hc.
      assert (Ha : add t0 i0 = t0 + i0).
      { apply wrap_id. unfold in_range, min_value, max_value in *. nia. }
      assert (Hb : add i0 1 = i0 + 1).
      { apply wrap_id. unfold in_range, min_value, max_value in *. lia. }
      assert (Hstep : 2 * (t0 + i0) + (10 + (i0 + 1)) * (11 - (i0 + 1))
                      = 2 * t0 + (10 + i0) * (11 - i0)) by ring.
      assert (Hbody : body {| total := t0; i := i0 |}
                      = {| total := t0 + i0; i := i0 + 1 |}).
      { unfold body. cbn [i total]. rewrite Ha, Hb. reflexivity. }
      rewrite Hbody.
      destruct (IH {| total := t0 + i0; i := i0 + 1 |}) as (t & Hrun & Hsum);
        cbn [i total] in *; try lia.
      exists t. split; [exact Hrun | lia].
    + apply Z.leb_gt in Hc. assert (i0 = 11) by lia. subst i0.
      exists t0. split; [reflexivity | lia].
Qed.

(** X14: entered with [i] between 1 and 11 and a total that leaves room for
    55 more, the loop stops once it has 12 - [i] tests of its condition, with
    [i] at 11 and the numbers from [i] to 10 added to the total. *)
Theorem while_adds_up_to_ten (fuel : nat) (v : vars) :
  1 <= i v <= 11 ->
  0 <= total v <= max_value - 55 ->
  12 - i v <= Z.of_nat fuel ->
  exists t,
    while fuel v = Some {| total := t; i := 11 |}
    /\ 2 * t = 2 * total v + (10 + i v) * (11 - i v).
Proof.
  intros Hi Ht Hfuel. apply while_sums; try lia.
  unfold max_value in *. nia.
Qed.

Lemma while_adds_up_to_ten_witness :
  (1 <= i init <= 11 /\ 0 <= total init <= max_value - 55
   /\ 12 - i init <= Z.of_nat 11)
  /\ (exists t, while 11 init = Some {| total := t; i := 11 |}
                /\ 2 * t = 2 * total init + (10 + i init) * (11 - i init))
  /\ sum 11 = Some 55.
Proof.
  assert (H : 1 <= i init <= 11 /\ 0 <= total init <= max_value - 55
              /\ 12 - i init <= Z.of_nat 11).
  { unfold max_value. simpl. lia. }
  split; [exact H |]. split; [| reflexivity].
  destruct H as (H1 & H2 & H3).
  exact (while_adds_up_to_ten 11 init H1 H2 H3).
Defined.

End Scala101Facts.

(** ** Sorting books *)

Module DataClassesFacts.
Import DataClasses.
Local Open Scope Z_scope.

(** The book's sort key is the negative of its page count. *)
Lemma new_Book_keyed (t a : string) (p : Z) :
  sort_key (new_Book t a p) = - pages (new_Book t a p).
Proof. reflexivity. Qed.

Lemma insert_perm (x : Book) (l : list Book) : Permutation (x :: l) (insert x l).
Proof.
  induction l as [| y rest IH]; simpl.
  - apply Permutation_refl.
  - destruct (Book_lt x y).
    + apply Permutation_refl.
    + eapply perm_trans; [apply perm_swap |]. apply perm_skip, IH.
Qed.

Lemma fold_insert_perm (l acc : list Book) :
  Permutation (l ++ acc) (fold_left (fun acc x => insert x acc) l acc).
Proof.
  revert acc. induction l as [| x rest IH]; intros acc; simpl.
  - apply Permutation_refl.
  - eapply perm_trans; [| apply IH].
    eapply perm_trans; [apply Permutation_middle |].
    apply Permutation_app_head, insert_perm.
Qed.

Lemma Book_lt_pages (x y : Book) :
  keyed x -> keyed y ->
  if Book_lt x y then pages y <= pages x else pages x <= pages y.
Proof.
  unfold keyed, Book_lt. intros Hx Hy.
  destruct (sort_key x =? sort_key y) eqn:Hk; simpl.
  - apply Z.eqb_eq in Hk.
    destruct (if negb (title x =? title y)%string then String.ltb (title x) (title y)
              else if negb (author x =? author y)%string
                   then String.ltb (author x) (author y)
                   else pages x <? pages y); lia.
  - apply Z.eqb_neq in Hk. destruct (sort_key x <? sort_key y) eqn:Hlt.
    + apply Z.ltb_lt in Hlt. lia.
    + apply Z.ltb_ge in Hlt. lia.
Qed.

Lemma insert_keyed (x : Book) (l : list Book) :
  keyed x -> Forall keyed l -> Forall keyed (insert x l).
Proof.
  intros Hx Hl. eapply Permutation_Forall; [apply insert_perm |].
  constructor; assumption.
Qed.

Lemma insert_sorted (x : Book) (l : list Book) :
  keyed x -> Forall keyed l ->
  Sorted more_pages_first l -> Sorted more_pages_first (insert x l).
Proof.
  intros Hx Hl Hs. induction l as [| y rest IH]; simpl.
  - repeat constructor.
  - inversion Hl as [| ? ? Hy Hrest]; subst.
    inversion Hs as [| ? ? Hs' Hhd]; subst.
    pose proof (Book_lt_pages x y Hx Hy) as Hxy.
    destruct (Book_lt x y).
    + constructor; [exact Hs | constructor; exact Hxy].
    + constructor; [apply IH; assumption |].
      destruct rest as [| z rest']; simpl.
      * constructor. exact Hxy.
      * inversion Hrest as [| ? ? Hz _]; subst.
        pose proof (Book_lt_pages x z Hx Hz) as Hxz.
        destruct (Book_lt x z); constructor; [exact Hxy |].
        inversion Hhd; subst. assumption.
Qed.

Lemma fold_insert_sorted (l acc : list Book) :
  Forall keyed l -> Forall keyed acc -> Sorted more_pages_first acc ->
  Sorted more_pages_first (fold_left (fun acc x => insert x acc) l acc).
Proof.
  revert acc. induction l as [| x rest IH]; intros acc Hl Hacc Hs; simpl.
  - exact Hs.
  - inversion Hl; subst. apply IH; try assumption.
    + apply insert_keyed; assumption.
    + apply insert_sorted; assumption.
Qed.

(** X15: whatever books are built, [sorted] gives the same books back, each as often
    as it came in, with no book before one that has more pages: the negated
    sort key makes the ascending sort a descending one by pages. *)
Theorem sorted_books_by_pages_descending (specs : list (string * string * Z)) :
  let built := map (fun '(t, a, p) => new_Book t a p) specs in
  Permutation built (sorted built)
  /\ StronglySorted (fun a b => pages b <= pages a) (sorted built).
Proof.
  intros built. split.
  - unfold sorted. rewrite <- (app_nil_r built) at 1. apply fold_insert_perm.
  - apply Sorted_StronglySorted.
    + intros a b c Hab Hbc. lia.
    + unfold sorted. apply fold_insert_sorted.
      * unfold built. apply Forall_forall. intros b Hb.
        apply in_map_iff in Hb. destruct Hb as ([[t a] p] & <- & _).
        apply new_Book_keyed.
      * constructor.
      * constructor.
Qed.

End DataClassesFacts.

(** ** The logo and the hero *)

Module LogoFacts.
Import Vdom Partials.

Lemma elements_by_tag_Elem (t tag : string) (props : list (string * prop_value))
    (kids : list node) :
  elements_by_tag t (Elem tag props kids)
  = ((if String.eqb tag t then [ Elem tag props kids ] else [])
     ++ flat_map (elements_by_tag t) kids)%list.
Proof. reflexivity. Qed.

(** X16: the logo shows the icon's text followed by the name, and the one element
    it adds is its [div]: for any other tag, the elements of that tag in the
    logo are those of the icon. *)
Theorem Logo_adds_only_a_div (props : ILogoProps) (t : string) :
  t <> "div" ->
  elements_by_tag t (Logo props) = elements_by_tag t (icon props)
  /\ text_of (Logo props) = (text_of (icon props) ++ name props)%string.
Proof.
  intros Ht. split.
  - unfold Logo. rewrite elements_by_tag_Elem.
    destruct (String.eqb_spec "div" t) as [Heq | _].
    + exfalso. apply Ht. symmetry. exact Heq.
    + cbn [flat_map app]. change (elements_by_tag t (Text (name props))) with (@nil node).
      rewrite app_nil_r. reflexivity.
  - reflexivity.
Qed.

Lemma Logo_adds_only_a_div_witness :
  "a" <> "div"
  /\ elements_by_tag "a" (Logo {| icon := NavMenuItem "/" "home"; name := "The Data Lead" |})
     = elements_by_tag "a" (NavMenuItem "/" "home")
  /\ text_of (Logo {| icon := NavMenuItem "/" "home"; name := "The Data Lead" |})
     = (text_of (NavMenuItem "/" "home") ++ "The Data Lead")%string.
Proof.
  assert (H : "a" <> "div") by discriminate.
  split; [exact H |].
  exact (Logo_adds_only_a_div
           {| icon := NavMenuItem "/" "home"; name := "The Data Lead" |} "a" H).
Defined.

End LogoFacts.

Module HeroTsxFacts.
Import Vdom Partials HeroTsx.



(** X17: the links of the hero are its four social buttons, in the order Twitter,
    Facebook, LinkedIn, Youtube; each wraps one [HeroSocial] icon and each
    targets the site root [/], so none leaves the site. *)
Theorem Hero_social_buttons (u : unit) :
  flat_map (elements_by_tag "a") (nodes (Hero u)) = socialButtons (Hero u)
  /\ map (attr "href") (socialButtons (Hero u)) = [ Some "/"; Some "/"; Some "/"; Some "/" ]
  /\ is_external "/" = false
  /\ flat_map (fun b => map (attr "alt") (children_of b)) (socialButtons (Hero u))
     = [ Some "Twitter icon"; Some "Facebook icon"; Some "Linkedin icon";
         Some "Youtube icon" ]
  /\ flat_map (fun b => map tag_of (children_of b)) (socialButtons (Hero u))
     = [ Some "HeroSocial"; Some "HeroSocial"; Some "HeroSocial"; Some "HeroSocial" ].
Proof. destruct u. repeat split. Qed.

(** X18: the hero and the navbar share their look: the name in the hero's title is
    drawn in the colour of the logo, whatever the name and the logo, and the
    hero's avatar is the image of the navbar's logo. *)
Theorem hero_matches_navbar (text : string) (props : ILogoProps) (u : unit) :
  style_of "color" (introName text) = style_of "color" (Logo props)
  /\ style_of "color" (Logo props) = Some "rgba(25, 189, 236, 0.9)"
  /\ map (attr "src") (elements_by_tag "img" (Navbar u))
     = [ attr "src" (avatar (Hero u)) ].
Proof. destruct u. repeat split. Qed.

End HeroTsxFacts.

(** ** The headers of the three posts *)

Module HeaderFacts.
Import FrontMatter Posts DataClasses.

(** X19: each of the three posts has a header that reads, with a title, a
    publication date entry, a path as image reference and the shared layout;
    the descriptions and image references tell the posts apart, the titles do
    not: [scala-101.md] and [scala-oop.md] are both titled "Scala 101". *)
Theorem three_posts_headers (md_101 md_oop md_dc : list string) :
  exists h1 h2 h3,
    map load (all_posts md_101 md_oop md_dc)
    = [ Some {| item_header := h1; item_body := md_101 |};
        Some {| item_header := h2; item_body := md_oop |};
        Some {| item_header := h3; item_body := md_dc |} ]
    /\ Forall (fun h => header_invariant h = true
                        /\ option_map is_path (field "imgSrc" h) = Some true
                        /\ field "layout" h = Some (SText "@/templates/BasePost.astro"))
              [ h1; h2; h3 ]
    /\ NoDup (map (field "description") [ h1; h2; h3 ])
    /\ NoDup (map (field "imgSrc") [ h1; h2; h3 ])
    /\ field "title" h1 = field "title" h2
    /\ field "title" h3 = Some (SText "Data Classes")
    /\ map (field "pubDate") [ h2; h3 ] = [ Some (SDate 2024 2 23); Some (SDate 2024 2 23) ].
Proof.
  eexists _, _, _. split; [reflexivity |].
  split; [repeat constructor |].
  split.
  { repeat constructor; simpl; intuition discriminate. }
  split.
  { repeat constructor; simpl; intuition discriminate. }
  repeat split.
Qed.

End HeaderFacts.

(** ** The samples, run *)

Module SampleRuns.
Import Console ScalaOop.

Example Saiyan_main_prints :
  printed (Saiyan.main Saiyan.goku)
  = [ "Goku's current power level is 100.";
      "Goku has trained hard! Power level increased to 1100.";
      "Goku's current power level is 1100.";
      "Goku has transformed into a Super Saiyan! Power level surged to 55000.";
      "Goku's current power level is 55000." ].
Proof. reflexivity. Qed.

Example BoundedPoint_sample_runs :
  BoundedPoint.sample BoundedPoint.new
  = (tt, {| BoundedPoint._x := 99; BoundedPoint._y := 0 |}, [ "WARNING: Out of bounds" ]).
Proof. reflexivity. Qed.

Example Point_toString_after_move :
  Point.toString (Point.move 2 (-7) {| Point.x := 1; Point.y := 0 |}) = "(3, -7)".
Proof. reflexivity. Qed.

Example truncate_Chuck :
  StringUtils.truncate (StringUtils.literal "Chuck Bartowski") 3 = StringUtils.Value [ 67; 104; 117 ]%N.
Proof. reflexivity. Qed.

Example report_books :
  DataClasses.report DataClasses.books
  = [ "Advanced Python: 400 pages"; "Python Programming: 300 pages";
      "Learning Python: 250 pages" ].
Proof. reflexivity. Qed.

End SampleRuns.
